(** * bookwyrm/book_search.py : local catalogue search

    A shallow embedding of [bookwyrm/book_search.py] and the statements
    proved about it.

    Conventions of the embedding.
    - A Python [str] is a [string]; the string methods are given for the
      ASCII range, which is where ISBNs and the dispatch on the space
      character live.
    - The [Edition] table is a list of records, in the order the engine
      scans it.  A [QuerySet] is modelled by the rows its evaluation yields;
      an annotated row carries its annotations by name.  Django builds
      querysets lazily: an error of the engine shows when the queryset is
      evaluated; here it is the outcome of the function that built it.
    - The engine's text search ([search_vector=query], [SearchRank]), the
      connectors' [maybe_isbn], the model's deduplication fields and
      [MEDIA_FULL_URL] live outside this file of the repository and are the
      fields of the class [Collaborators].
    - A [Q] object is the predicate it denotes on a row of [Edition].  A
      filter over a many-valued relation (the shelves of a user) joins, and
      gives a row once per related row; that multiplicity is not part of
      the embedding, whose statements on filtered rows are on membership.
    - A subquery used as an expression ([Subquery] of a queryset that is
      not sliced) follows PostgreSQL: no row gives NULL, one row gives its
      value, more than one row is the error "more than one row returned by
      a subquery used as an expression".  Queries are therefore evaluated
      in an error monad.
    - [_generic_search] returns, next to its result, the list of the
      lookups it called, so that statements on which lookup runs can be
      made. *)

From Stdlib Require Import Bool Arith Lia List ZArith QArith.
From Stdlib Require Import Ascii String.
From Stdlib Require Import Sorting.Sorted.
Import ListNotations.

Local Open Scope string_scope.
Local Open Scope list_scope.
Local Open Scope nat_scope.

(** ** Python string methods *)

Module PyStr.

(** [str.isspace] on one ASCII character: TAB, LF, VT, FF, CR,
    FS, GS, RS, US and SPACE. *)
Definition isspace (c : ascii) : bool :=
  let n := nat_of_ascii c in
  ((9 <=? n) && (n <=? 13)) || ((28 <=? n) && (n <=? 32)).

Definition upper_char (c : ascii) : ascii :=
  let n := nat_of_ascii c in
  if (97 <=? n) && (n <=? 122) then ascii_of_nat (n - 32) else c.

(** [s.upper()] *)
Fixpoint upper (s : string) : string :=
  match s with
  | EmptyString => EmptyString
  | String c s' => String (upper_char c) (upper s')
  end.

(** [s.lstrip()] *)
Fixpoint lstrip (s : string) : string :=
  match s with
  | EmptyString => EmptyString
  | String c s' => if isspace c then lstrip s' else s
  end.

(** [s.rstrip()] *)
Fixpoint rstrip (s : string) : string :=
  match s with
  | EmptyString => EmptyString
  | String c s' =>
      match rstrip s' with
      | EmptyString => if isspace c then EmptyString else String c EmptyString
      | String d t => String c (String d t)
      end
  end.

(** [s.strip()] *)
Definition strip (s : string) : string := lstrip (rstrip s).

Fixpoint replicate (n : nat) (c : ascii) : string :=
  match n with
  | O => EmptyString
  | S n' => String c (replicate n' c)
  end.

(** [s.rjust(width, fillchar)] *)
Definition rjust (width : nat) (fillchar : ascii) (s : string) : string :=
  if length s <? width then (replicate (width - length s) fillchar ++ s)%string else s.

(** [sub in s] for a one-character [sub] *)
Fixpoint contains_char (c : ascii) (s : string) : bool :=
  match s with
  | EmptyString => false
  | String d s' => Ascii.eqb c d || contains_char c s'
  end.

(** Truth value of a [str]: only the empty string is falsy. *)
Definition truthy (s : string) : bool :=
  match s with EmptyString => false | String _ _ => true end.

Fixpoint all_space (s : string) : bool :=
  match s with
  | EmptyString => true
  | String c s' => isspace c && all_space s'
  end.

(** A string with no white space at either end. *)
Definition stripped (s : string) : Prop := lstrip s = s /\ rstrip s = s.

End PyStr.

(** [query.strip().upper().rjust(10, "0")], the normalisation written out
    in [isbn_search] and in [search_identifiers]. *)
Definition normalize_isbn (query : string) : string :=
  PyStr.rjust 10 "0"%char (PyStr.upper (PyStr.strip query)).

(** ** Data model *)

(** [datetime.date]; only [year] is read. *)
Record date := { year : Z; month : Z; day : Z }.

(** One row of the [Edition] table, with the columns this module reads.
    [cover] is the name held by the image field ([None] or the empty name
    when there is no file), [parent_work] is [parent_work__id],
    [shelfbook_users] lists the users of the [ShelfBook] rows that point to
    the book. *)
Record Edition := {
  id : Z;
  remote_id : string;
  title : string;
  author_text : string;
  published_date : option date;
  cover : option string;
  isbn_10 : option string;
  isbn_13 : option string;
  parent_work : Z;
  search_vector : list string;
  shelfbook_users : list Z
}.

(** Values of the engine: what an annotation holds. *)
Inductive value := SqlNull | SqlInt (z : Z) | SqlFloat (q : Q).

(** A row of a queryset: the model instance and its annotations by name,
    the most recent first. *)
Record Row := { obj : Edition; annotations : list (string * value) }.

(** [SearchQuery(text, config=...)] and the [|] of two queries. *)
Inductive SearchQuery :=
| PlainQuery (text config : string)
| OrQuery (a b : SearchQuery).

(** A [Q] object over the columns and relations of [Edition], as the
    predicate it denotes on a row of the table. *)
Definition Qobj := Edition -> bool.

(** What a search function hands back: the list literal of the early
    return, a queryset, a model instance or [None] (from [.first()]). *)
Inductive result :=
| PyList (l : list Row)
| QuerySet (rows : list Row)
| Instance (r : Row)
| PyNone.

(** Python values held by a [SearchResult]. *)
Inductive pyval := VNone | VStr (s : string) | VInt (z : Z) | VFloat (q : Q).

(** ** Exceptions *)

Inductive error :=
| ProgrammingError   (* the engine refused the query *)
| TypeError.         (* [reduce] of an empty sequence with no initial value *)

Inductive outcome (A : Type) :=
| Ok (a : A)
| Raise (e : error).
Arguments Ok {A} a.
Arguments Raise {A} e.

Definition bind {A B} (m : outcome A) (k : A -> outcome B) : outcome B :=
  match m with
  | Ok a => k a
  | Raise e => Raise e
  end.

Notation "x <- m ;; k" := (bind m (fun x => k))
  (at level 61, m at next level, right associativity).

Fixpoint mapM {A B} (f : A -> outcome B) (l : list A) : outcome (list B) :=
  match l with
  | [] => Ok []
  | a :: l' => b <- f a ;; bs <- mapM f l' ;; Ok (b :: bs)
  end.

(** ** The queryset operations the module uses *)

Module Orm.

Definition option_string_eqb (a : option string) (b : string) : bool :=
  match a with
  | Some s => String.eqb s b
  | None => false
  end.

(** [Model.objects]: the rows of the table, not annotated. *)
Definition all (table : list Edition) : list Row :=
  map (fun e => {| obj := e; annotations := [] |}) table.

(** [getattr(row, name)] for an annotation; [None] when the row has no
    such attribute. *)
Fixpoint lookup (name : string) (l : list (string * value)) : option value :=
  match l with
  | [] => None
  | (k, v) :: l' => if String.eqb k name then Some v else lookup name l'
  end.

Definition get (name : string) (r : Row) : option value :=
  lookup name (annotations r).

Definition set (name : string) (v : value) (r : Row) : Row :=
  {| obj := obj r; annotations := (name, v) :: annotations r |}.

(** [.annotate(name=expr)] for an expression of the row itself. *)
Definition annotate (name : string) (expr : Row -> value) (rows : list Row)
  : list Row :=
  map (fun r => set name (expr r) r) rows.

(** [.values(name)]: the column of that annotation. *)
Definition values (name : string) (rows : list Row) : list value :=
  map (fun r => match get name r with Some v => v | None => SqlNull end) rows.

(** A subquery used as an expression: NULL for no row, the value for one
    row, an error for more. *)
Definition scalar (sub : outcome (list value)) : outcome value :=
  vs <- sub ;;
  match vs with
  | [] => Ok SqlNull
  | [v] => Ok v
  | _ :: _ :: _ => Raise ProgrammingError
  end.

(** [.annotate(name=Subquery(sub))] with no [OuterRef] in [sub]: the
    expression is computed for every row that is produced, and is the
    same for all of them. *)
Definition annotate_subquery (name : string) (sub : outcome (list value))
    (rows : list Row) : outcome (list Row) :=
  mapM (fun r => v <- scalar sub ;; Ok (set name v r)) rows.

Definition as_Q (v : value) : option Q :=
  match v with
  | SqlNull => None
  | SqlInt z => Some (inject_Z z)
  | SqlFloat q => Some q
  end.

(** Ascending order of the engine, NULL last. *)
Definition value_ltb (a b : value) : bool :=
  match as_Q a, as_Q b with
  | Some x, Some y => negb (Qle_bool y x)
  | Some _, None => true
  | None, _ => false
  end.

(** [name__gt=bound] *)
Definition gt (name : string) (bound : Q) (r : Row) : bool :=
  match get name r with
  | Some v => match as_Q v with
              | Some x => negb (Qle_bool x bound)
              | None => false
              end
  | None => false
  end.

(** [name=bound] *)
Definition exact (name : string) (bound : Q) (r : Row) : bool :=
  match get name r with
  | Some v => match as_Q v with
              | Some x => Qeq_bool x bound
              | None => false
              end
  | None => false
  end.

Definition key_of (name : string) (r : Row) : value :=
  match get name r with Some v => v | None => SqlNull end.

(** [.order_by("-name")]: descending, NULL first, rows of equal key in
    the order they came. *)
Fixpoint insert_desc (name : string) (r : Row) (l : list Row) : list Row :=
  match l with
  | [] => [r]
  | x :: l' =>
      if value_ltb (key_of name r) (key_of name x)
      then x :: insert_desc name r l'
      else r :: x :: l'
  end.

Definition order_by_desc (name : string) (rows : list Row) : list Row :=
  fold_right (insert_desc name) [] rows.

(** [Window(expression=Rank(), partition_by=[part], order_by=key.asc())]:
    one more than the number of rows of the partition that come strictly
    before the row. *)
Definition window_rank (part : Row -> Z) (key : Row -> value)
    (rows : list Row) (r : Row) : value :=
  SqlInt (1 + Z.of_nat (List.length
    (filter (fun r' => Z.eqb (part r') (part r) && value_ltb (key r') (key r))
            rows))).

Definition annotate_window (name : string) (part : Row -> Z)
    (key : Row -> value) (rows : list Row) : list Row :=
  map (fun r => set name (window_rank part key rows r) r) rows.

(** [.distinct()] on rows of the model: one row per primary key. *)
Fixpoint distinct (rows : list Row) : list Row :=
  match rows with
  | [] => []
  | r :: rows' =>
      r :: filter (fun r' => negb (Z.eqb (id (obj r')) (id (obj r))))
                  (distinct rows')
  end.

Fixpoint insert_pk (r : Row) (l : list Row) : list Row :=
  match l with
  | [] => [r]
  | x :: l' =>
      if Z.ltb (id (obj x)) (id (obj r))
      then x :: insert_pk r l'
      else r :: x :: l'
  end.

(** [.first()] of a queryset with no ordering: the row of least primary
    key, or [None]. *)
Definition first (rows : list Row) : result :=
  match fold_right insert_pk [] rows with
  | [] => PyNone
  | r :: _ => Instance r
  end.

(** [reduce(operator.or_, qs)] *)
Definition reduce_or (qs : list Qobj) : outcome Qobj :=
  match qs with
  | [] => Raise TypeError
  | q :: qs' => Ok (fold_left (fun acc q' => fun e => acc e || q' e) qs' q)
  end.

(** Truth value of what a search returned. *)
Definition truthy (r : result) : bool :=
  match r with
  | PyList l => match l with [] => false | _ :: _ => true end
  | QuerySet rows => match rows with [] => false | _ :: _ => true end
  | Instance _ => true
  | PyNone => false
  end.

End Orm.

(** ** What the module imports from elsewhere *)

(** [MEDIA_FULL_URL] of the settings, [connectors.maybe_isbn], the fields of
    [Edition] flagged [deduplication_field] (each as the column it reads),
    and the engine's [search_vector=query] lookup and [SearchRank]. *)
Class Collaborators := {
  MEDIA_FULL_URL : string;
  maybe_isbn : string -> bool;
  deduplication_fields : list (Edition -> option string);
  search_vector_matches : list string -> SearchQuery -> bool;
  SearchRank : list string -> SearchQuery -> Q
}.

(** ** [SearchResult] *)

Module SearchResult.

Record t := {
  title : pyval;
  key : pyval;
  connector : pyval;
  view_link : pyval;
  author : pyval;
  year : pyval;
  cover : pyval;
  confidence : pyval
}.

(** [dataclasses.asdict]: the fields in the order of their declaration. *)
Definition asdict (self : t) : list (string * pyval) :=
  [ ("title", title self); ("key", key self); ("connector", connector self);
    ("view_link", view_link self); ("author", author self);
    ("year", year self); ("cover", cover self);
    ("confidence", confidence self) ].

(** [del d[k]] for a key the dictionary holds. *)
Definition del (k : string) (d : list (string * pyval)) : list (string * pyval) :=
  filter (fun kv => negb (String.eqb (fst kv) k)) d.

Definition json (self : t) : list (string * pyval) :=
  let serialized := asdict self in
  del "connector" serialized.

Fixpoint item (k : string) (d : list (string * pyval)) : option pyval :=
  match d with
  | [] => None
  | (k', v) :: d' => if String.eqb k' k then Some v else item k d'
  end.

End SearchResult.

(** ** The functions of [book_search.py] *)

(** Which of the two lookups [_generic_search] called, in order. *)
Inductive event :=
| CallSearchIdentifiers (query : string)
| CallSearchTitleAuthor (query : string).

Section BookSearch.
Context `{Collaborators}.

(** [start or models.Edition.objects]: an empty [start] is falsy. *)
Definition objects_of (start : option (list Edition)) (table : list Edition)
  : list Row :=
  match start with
  | Some (e :: l) => Orm.all (e :: l)
  | _ => Orm.all table
  end.

Definition isbn_search (query : string) (table : list Edition) : result :=
  if negb (PyStr.truthy query) then PyList []
  else
    let query := normalize_isbn query in
    let by_isbn := fun e : Edition =>
      Orm.option_string_eqb (isbn_10 e) query
      || Orm.option_string_eqb (isbn_13 e) query in
    QuerySet (Orm.distinct (filter (fun r => by_isbn (obj r)) (Orm.all table))).

(** Truth value of the image field: a file with a non-empty name. *)
Definition cover_name (e : Edition) : option string :=
  match cover e with
  | Some EmptyString => None
  | Some p => Some p
  | None => None
  end.

Definition py_of_value (v : value) : pyval :=
  match v with
  | SqlNull => VNone
  | SqlInt z => VInt z
  | SqlFloat q => VFloat q
  end.

Definition format_search_result (search_result : Row) : list (string * pyval) :=
  let e := obj search_result in
  let cover :=
    match cover_name e with
    | Some p => VStr (MEDIA_FULL_URL ++ p)
    | None => VNone
    end in
  SearchResult.json
    {| SearchResult.title := VStr (title e);
       SearchResult.key := VStr (remote_id e);
       SearchResult.author := VStr (author_text e);
       SearchResult.year :=
         match published_date e with
         | Some d => VInt (year d)
         | None => VNone
         end;
       SearchResult.cover := cover;
       SearchResult.confidence :=
         match Orm.get "rank" search_result with
         | Some v => py_of_value v
         | None => VInt 1
         end;
       SearchResult.connector := VStr "";
       SearchResult.view_link := VNone |}.

Definition search_identifiers (query : string) (filters : list Qobj)
    (return_first : bool) (start : option (list Edition))
    (table : list Edition) : outcome result :=
  let query := if maybe_isbn query then normalize_isbn query else query in
  let or_filters :=
    map (fun f : Edition -> option string =>
           fun e : Edition => Orm.option_string_eqb (f e) query)
        deduplication_fields in
  let objects := objects_of start table in
  any_field <- Orm.reduce_or or_filters ;;
  let results :=
    Orm.distinct
      (filter (fun r => forallb (fun q : Qobj => q (obj r)) filters
                        && any_field (obj r))
              objects) in
  if return_first then Ok (Orm.first results) else Ok (QuerySet results).

Definition text_query (query : string) : SearchQuery :=
  OrQuery (PlainQuery query "simple") (PlainQuery query "english").

(** The relevance of a row for the text of a query: what [SearchRank]
    gives for its search vector. *)
Definition relevance (query : string) (r : Row) : Q :=
  SearchRank (search_vector (obj r)) (text_query query).

(** The queryset [results] of [search_title_author]. *)
Definition ranked_results (query : string) (min_confidence : Q)
    (filters : list Qobj) (start : option (list Edition))
    (table : list Edition) : list Row :=
  let query := text_query query in
  let objects := objects_of start table in
  Orm.order_by_desc "rank"
    (filter (Orm.gt "rank" min_confidence)
       (Orm.annotate "rank"
          (fun r => SqlFloat (SearchRank (search_vector (obj r)) query))
          (filter (fun r => forallb (fun q : Qobj => q (obj r)) filters
                            && search_vector_matches (search_vector (obj r)) query)
                  objects))).

Definition search_title_author (query : string) (min_confidence : Q)
    (filters : list Qobj) (return_first dedup : bool)
    (start : option (list Edition)) (table : list Edition) : outcome result :=
  let results := ranked_results query min_confidence filters start table in
  if negb dedup then Ok (QuerySet results)
  else
    let subquery :=
      rows <- Orm.annotate_subquery "search_rank"
                (Ok (Orm.values "rank" results)) (Orm.all table) ;;
      Ok (Orm.annotate_window "rank"
            (fun r => parent_work (obj r)) (Orm.key_of "search_rank") rows) in
    let books :=
      rows <- Orm.annotate_subquery "rank"
                (rows' <- subquery ;; Ok (Orm.values "rank" rows'))
                (Orm.all table) ;;
      Ok (filter (Orm.exact "rank" 1%Q) rows) in
    books <- books ;;
    if return_first then Ok (Orm.first books) else Ok (QuerySet books).

(** [dedup] is a parameter of [_generic_search] that its body does not
    read: [search_title_author] is called without it and takes its
    default, [True]. *)
Definition _generic_search (query : string) (min_confidence : Q)
    (filters : list Qobj) (return_first dedup : bool)
    (start : option (list Edition)) (table : list Edition)
  : list event * outcome result :=
  if negb (PyStr.truthy query) then ([], Ok (PyList []))
  else
    let query := PyStr.strip query in
    let '(log, results) :=
      if negb (PyStr.contains_char " "%char query)
      then ([CallSearchIdentifiers query],
            search_identifiers query filters return_first start table)
      else ([], Ok PyNone) in
    match results with
    | Raise e => (log, Raise e)
    | Ok r =>
        if negb (Orm.truthy r)
        then (log ++ [CallSearchTitleAuthor query],
              search_title_author query min_confidence filters return_first
                true start table)
        else (log, Ok r)
    end.

(** [filters or []] *)
Definition or_empty (filters : option (list Qobj)) : list Qobj :=
  match filters with
  | Some l => l
  | None => []
  end.

Definition search (query : string) (min_confidence : Q)
    (filters : option (list Qobj)) (return_first : bool)
    (table : list Edition) : list event * outcome result :=
  let filters := or_empty filters in
  _generic_search query min_confidence filters return_first true None table.

(** [Q(shelfbook__user=user)] *)
Definition Q_shelfbook_user (user : Z) : Qobj :=
  fun e => existsb (Z.eqb user) (shelfbook_users e).

Definition search_user_shelves (query : string) (user : Z)
    (min_confidence : Q) (filters : option (list Qobj)) (return_first : bool)
    (start : option (list Edition)) (table : list Edition)
  : list event * outcome result :=
  let filters := or_empty filters ++ [Q_shelfbook_user user] in
  _generic_search query min_confidence filters return_first false start table.

End BookSearch.

(** ** A small catalogue to run the functions on *)

Module Demo.

Definition is_isbn_char (c : ascii) : bool :=
  let n := nat_of_ascii c in
  ((48 <=? n) && (n <=? 57)) || (n =? 88) || (n =? 120).

Fixpoint all_isbn_chars (s : string) : bool :=
  match s with
  | EmptyString => true
  | String c s' => is_isbn_char c && all_isbn_chars s'
  end.

(** Modelled from the spec: [connectors.maybe_isbn] is not part of
    [book_search.py]; the spec calls it a predicate deciding whether a
    string plausibly encodes an ISBN.  Here: 9, 10 or 13 characters, each
    a digit or an X. *)
Definition plausible_isbn (query : string) : bool :=
  all_isbn_chars query
  && ((length query =? 9) || (length query =? 10) || (length query =? 13)).

Definition occurs (text : string) (lexeme : string) : bool :=
  match index 0 lexeme text with
  | Some _ => true
  | None => false
  end.

Fixpoint query_text (q : SearchQuery) : string :=
  match q with
  | PlainQuery text _ => text
  | OrQuery a _ => query_text a
  end.

(** A vector matches when one of its lexemes occurs in the text of the
    query; the rank is a tenth per such lexeme. *)
Definition lexeme_hits (vector : list string) (q : SearchQuery) : nat :=
  List.length (filter (occurs (query_text q)) vector).

Local Open Scope Z_scope.

#[global] Instance collaborators : Collaborators := {|
  MEDIA_FULL_URL := "https://example.net/images/";
  maybe_isbn := plausible_isbn;
  deduplication_fields :=
    [ (fun e => Some (remote_id e)); isbn_10; isbn_13 ];
  search_vector_matches := fun vector q => negb (lexeme_hits vector q =? 0)%nat;
  SearchRank := fun vector q => (inject_Z (Z.of_nat (lexeme_hits vector q)) / 10)%Q
|}.

Definition philosophers_stone : Edition := {|
  id := 1;
  remote_id := "https://example.net/book/1";
  title := "Harry Potter and the Philosopher's Stone";
  author_text := "J. K. Rowling";
  published_date := Some {| year := 1997; month := 6; day := 26 |};
  cover := Some "covers/stone.jpg";
  isbn_10 := Some "0747532699";
  isbn_13 := Some "9780747532699";
  parent_work := 100;
  search_vector := ["harry"; "potter"; "philosopher"; "stone"; "rowling"];
  shelfbook_users := [7]
|}.

Definition sorcerers_stone : Edition := {|
  id := 2;
  remote_id := "https://example.net/book/2";
  title := "Harry Potter and the Sorcerer's Stone";
  author_text := "J. K. Rowling";
  published_date := Some {| year := 1998; month := 9; day := 1 |};
  cover := None;
  isbn_10 := Some "059035342X";
  isbn_13 := Some "9780590353427";
  parent_work := 100;
  search_vector := ["harry"; "potter"; "sorcerer"; "stone"; "rowling"];
  shelfbook_users := [7]
|}.

Definition moby_dick : Edition := {|
  id := 3;
  remote_id := "https://example.net/book/3";
  title := "Moby Dick";
  author_text := "Herman Melville";
  published_date := None;
  cover := Some "";
  isbn_10 := None;
  isbn_13 := None;
  parent_work := 200;
  search_vector := ["moby"; "dick"; "melville"];
  shelfbook_users := []
|}.

(** Two editions of one work, both on the shelves of user 7. *)
Definition shelf_table : list Edition := [philosophers_stone; sorcerers_stone].

Definition catalogue : list Edition :=
  [philosophers_stone; sorcerers_stone; moby_dick].

Definition row (e : Edition) (annotations : list (string * value)) : Row :=
  {| obj := e; annotations := annotations |}.

End Demo.

(** ** Facts about the string methods *)

Module PyStrFacts.
Import PyStr.

Lemma isspace_upper_char c : isspace (upper_char c) = isspace c.
Proof. destruct c as [[] [] [] [] [] [] [] []]; reflexivity. Qed.

Lemma upper_char_idem c : upper_char (upper_char c) = upper_char c.
Proof. destruct c as [[] [] [] [] [] [] [] []]; reflexivity. Qed.

Lemma upper_idem s : upper (upper s) = upper s.
Proof.
  induction s as [|c s IH]; simpl; [reflexivity|].
  now rewrite upper_char_idem, IH.
Qed.

Lemma upper_length s : length (upper s) = length s.
Proof. induction s as [|c s IH]; simpl; congruence. Qed.

Lemma upper_app s t : upper (s ++ t)%string = (upper s ++ upper t)%string.
Proof. induction s as [|c s IH]; simpl; congruence. Qed.

Lemma upper_replicate_zero n : upper (replicate n "0"%char) = replicate n "0"%char.
Proof. induction n as [|n IH]; simpl; [reflexivity|]. now rewrite IH. Qed.

Lemma lstrip_upper s : lstrip (upper s) = upper (lstrip s).
Proof.
  induction s as [|c s IH]; simpl; [reflexivity|].
  rewrite isspace_upper_char. destruct (isspace c); [exact IH|reflexivity].
Qed.

Lemma rstrip_upper s : rstrip (upper s) = upper (rstrip s).
Proof.
  induction s as [|c s IH]; simpl; [reflexivity|].
  rewrite IH, isspace_upper_char.
  destruct (rstrip s); simpl; [destruct (isspace c)|]; reflexivity.
Qed.

Lemma strip_upper s : strip (upper s) = upper (strip s).
Proof. unfold strip. now rewrite rstrip_upper, lstrip_upper. Qed.

Lemma lstrip_idem s : lstrip (lstrip s) = lstrip s.
Proof.
  induction s as [|c s IH]; simpl; [reflexivity|].
  destruct (isspace c) eqn:E; [exact IH|]. simpl. now rewrite E.
Qed.

Lemma rstrip_idem s : rstrip (rstrip s) = rstrip s.
Proof.
  induction s as [|c s IH]; simpl; [reflexivity|].
  destruct (rstrip s) as [|d t] eqn:E.
  - destruct (isspace c) eqn:Ec; simpl; [reflexivity|]. now rewrite Ec.
  - change (rstrip (String c (String d t))) with
      (match rstrip (String d t) with
       | EmptyString => if isspace c then EmptyString else String c EmptyString
       | String d' t' => String c (String d' t')
       end).
    now rewrite IH.
Qed.

(** Dropping leading white space from a string without trailing white
    space leaves no trailing white space. *)
Lemma rstrip_lstrip_fixed s : rstrip s = s -> rstrip (lstrip s) = lstrip s.
Proof.
  induction s as [|c s IH]; simpl; [reflexivity|].
  intros H. destruct (isspace c) eqn:Ec.
  - destruct (rstrip s) as [|d t] eqn:E; [discriminate|].
    apply IH. congruence.
  - simpl. rewrite Ec. exact H.
Qed.

Lemma strip_stripped s : stripped (strip s).
Proof.
  split; unfold strip.
  - apply lstrip_idem.
  - apply rstrip_lstrip_fixed, rstrip_idem.
Qed.

Lemma stripped_strip s : stripped s -> strip s = s.
Proof. intros [Hl Hr]. unfold strip. now rewrite Hr. Qed.

Lemma upper_stripped s : stripped s -> stripped (upper s).
Proof.
  intros [Hl Hr]. split.
  - now rewrite lstrip_upper, Hl.
  - now rewrite rstrip_upper, Hr.
Qed.

Lemma rstrip_cons_nonspace c s :
  isspace c = false -> rstrip s = s -> rstrip (String c s) = String c s.
Proof.
  intros Hc Hs. simpl. rewrite Hs, Hc. destruct s; reflexivity.
Qed.

Lemma replicate_zero_stripped n s :
  stripped s -> stripped (replicate n "0"%char ++ s)%string.
Proof.
  intros Hs. induction n as [|n IH]; simpl; [exact Hs|].
  destruct IH as [_ IHr]. split.
  - reflexivity.
  - now apply rstrip_cons_nonspace.
Qed.

Lemma rjust_zero_stripped w s : stripped s -> stripped (rjust w "0"%char s).
Proof.
  intros Hs. unfold rjust. destruct (length s <? w); [|exact Hs].
  now apply replicate_zero_stripped.
Qed.

Lemma replicate_length n c : length (replicate n c) = n.
Proof. induction n as [|n IH]; simpl; congruence. Qed.

Lemma append_length s t : length (s ++ t)%string = length s + length t.
Proof. induction s as [|c s IH]; simpl; congruence. Qed.

Lemma rjust_length w c s : w <= length (rjust w c s).
Proof.
  unfold rjust. destruct (length s <? w) eqn:E.
  - apply Nat.ltb_lt in E. rewrite append_length, replicate_length. lia.
  - apply Nat.ltb_ge in E. exact E.
Qed.

Lemma rjust_long w c s : w <= length s -> rjust w c s = s.
Proof.
  intros H. unfold rjust.
  destruct (length s <? w) eqn:E; [|reflexivity].
  apply Nat.ltb_lt in E. lia.
Qed.

Lemma rjust_idem w c s : rjust w c (rjust w c s) = rjust w c s.
Proof. apply rjust_long, rjust_length. Qed.

Lemma upper_rjust_zero w s :
  upper (rjust w "0"%char s) = rjust w "0"%char (upper s).
Proof.
  unfold rjust. rewrite upper_length.
  destruct (length s <? w); [|reflexivity].
  now rewrite upper_app, upper_replicate_zero.
Qed.

Lemma all_space_rstrip s : all_space s = true -> rstrip s = EmptyString.
Proof.
  induction s as [|c s IH]; simpl; [reflexivity|].
  intros H. apply andb_true_iff in H as [Hc Hs].
  now rewrite (IH Hs), Hc.
Qed.

Lemma all_space_strip s : all_space s = true -> strip s = EmptyString.
Proof. intros H. unfold strip. now rewrite all_space_rstrip. Qed.

Lemma normalize_isbn_stripped s : stripped (normalize_isbn s).
Proof.
  unfold normalize_isbn.
  apply rjust_zero_stripped, upper_stripped, strip_stripped.
Qed.

End PyStrFacts.

(** ** ISBN normalisation and [isbn_search] *)

(** C8. The ISBN normalisation (strip, upper-case, left-pad with zeros to
    ten characters) is idempotent: normalising a normalised string gives
    the same string. *)
Theorem normalize_isbn_idempotent (s : string) :
  normalize_isbn (normalize_isbn s) = normalize_isbn s.
Proof.
  pose proof (PyStrFacts.normalize_isbn_stripped s) as Hs.
  unfold normalize_isbn at 1.
  rewrite (PyStrFacts.stripped_strip _ Hs).
  unfold normalize_isbn.
  rewrite PyStrFacts.upper_rjust_zero, PyStrFacts.upper_idem.
  apply PyStrFacts.rjust_idem.
Qed.



Section IsbnSearch.
Context `{Collaborators}.


End IsbnSearch.


Example isbn_search_finds_philosophers_stone :
  isbn_search "747532699" Demo.catalogue
  = QuerySet [Demo.row Demo.philosophers_stone []].
Proof. reflexivity. Qed.

(** ** Facts about the queryset operations *)

Module OrmFacts.
Import Orm.

Lemma option_string_eqb_true a k : option_string_eqb a k = true <-> a = Some k.
Proof.
  destruct a as [s|]; simpl.
  - rewrite String.eqb_eq. split; congruence.
  - split; discriminate.
Qed.

Lemma all_In r table : In r (all table) <-> In (obj r) table /\ annotations r = [].
Proof.
  unfold all. rewrite in_map_iff. split.
  - intros [e [<- He]]. simpl. auto.
  - intros [He Ha]. exists (obj r). split; [|exact He].
    destruct r as [e a]; simpl in *. now subst.
Qed.

Lemma all_length table : List.length (all table) = List.length table.
Proof. apply length_map. Qed.

Lemma distinct_In r rows : In r (distinct rows) -> In r rows.
Proof.
  revert r. induction rows as [|a rows IH]; simpl; [tauto|].
  intros r [->|Hr]; [now left|].
  apply filter_In in Hr as [Hr _]. right. now apply IH.
Qed.

Lemma distinct_complete r rows :
  In r rows -> exists r', In r' (distinct rows) /\ id (obj r') = id (obj r).
Proof.
  induction rows as [|a rows IH]; simpl; [tauto|].
  intros [->|Hr].
  - exists r. auto.
  - destruct (IH Hr) as [r' [Hin Hid]].
    destruct (Z.eqb (id (obj r')) (id (obj a))) eqn:E.
    + apply Z.eqb_eq in E. exists a. split; [now left|congruence].
    + exists r'. split; [|exact Hid].
      right. apply filter_In. split; [exact Hin|]. now rewrite E.
Qed.

End OrmFacts.

Section IsbnSearchBlank.
Context `{Collaborators}.

(** C10. A non-empty query made of white space only does not take the
    early return of [isbn_search]: it is stripped to the empty string and
    padded to ten zeros, and the lookup returns the editions whose
    [isbn_10] or [isbn_13] is that key.  Only the empty query returns the
    empty list. *)
Theorem isbn_search_whitespace_only (q : string) (table : list Edition) :
  q <> "" -> PyStr.all_space q = true ->
  normalize_isbn q = "0000000000"
  /\ (exists rows,
        isbn_search q table = QuerySet rows
        /\ rows = Orm.distinct
             (filter (fun r =>
                        Orm.option_string_eqb (isbn_10 (obj r)) "0000000000"
                        || Orm.option_string_eqb (isbn_13 (obj r)) "0000000000")
                     (Orm.all table))
        /\ (forall r, In r rows ->
              In (obj r) table
              /\ (isbn_10 (obj r) = Some "0000000000"
                  \/ isbn_13 (obj r) = Some "0000000000"))
        /\ (forall e, In e table ->
              isbn_10 e = Some "0000000000" \/ isbn_13 e = Some "0000000000" ->
              exists r, In r rows /\ id (obj r) = id e))
  /\ (forall q', isbn_search q' table = PyList [] <-> q' = "").
Proof.
  intros Hne Hws.
  assert (Hn : normalize_isbn q = "0000000000").
  { unfold normalize_isbn. now rewrite PyStrFacts.all_space_strip. }
  split; [exact Hn|]. split.
  - eexists. split; [|split; [reflexivity|split]].
    + unfold isbn_search. destruct q; [congruence|]. simpl PyStr.truthy.
      cbv iota beta. simpl negb. cbv iota. rewrite Hn. reflexivity.
    + intros r Hr. apply OrmFacts.distinct_In in Hr.
      apply filter_In in Hr as [Hr Hk].
      apply OrmFacts.all_In in Hr as [Hr _]. split; [exact Hr|].
      apply orb_true_iff in Hk.
      now rewrite !OrmFacts.option_string_eqb_true in Hk.
    + intros e He Hk.
      apply (OrmFacts.distinct_complete {| obj := e; annotations := [] |}).
      apply filter_In. split.
      * apply OrmFacts.all_In. auto.
      * simpl. apply orb_true_iff.
        now rewrite !OrmFacts.option_string_eqb_true.
  - intros q'. unfold isbn_search. destruct q'; simpl.
    + tauto.
    + split; discriminate.
Qed.

End IsbnSearchBlank.

Lemma isbn_search_whitespace_only_witness :
  normalize_isbn "   " = "0000000000"
  /\ isbn_search "   " Demo.catalogue = QuerySet []
  /\ isbn_search "" Demo.catalogue = PyList [].
Proof.
  destruct (isbn_search_whitespace_only "   " Demo.catalogue)
    as [Hn [[rows [Hq [Hrows _]]] Hempty]].
  - discriminate.
  - reflexivity.
  - split; [exact Hn|]. split.
    + rewrite Hq, Hrows. reflexivity.
    + now apply Hempty.
Defined.

(** ** [format_search_result] *)

Section Format.
Context `{Collaborators}.

(** C9. [format_search_result] returns a flat mapping with exactly the
    keys title, key, view_link, author, year, cover and confidence (no
    connector); cover is null for a record without cover and the media
    base URL followed by the stored path otherwise; confidence is the
    annotated rank when the record has one and 1 otherwise. *)
Theorem format_search_result_mapping (search_result : Row) :
  let e := obj search_result in
  let d := format_search_result search_result in
  map fst d = ["title"; "key"; "view_link"; "author"; "year"; "cover"; "confidence"]
  /\ SearchResult.item "connector" d = None
  /\ SearchResult.item "title" d = Some (VStr (title e))
  /\ SearchResult.item "key" d = Some (VStr (remote_id e))
  /\ SearchResult.item "view_link" d = Some VNone
  /\ SearchResult.item "author" d = Some (VStr (author_text e))
  /\ SearchResult.item "year" d
     = Some (match published_date e with
             | Some day => VInt (year day)
             | None => VNone
             end)
  /\ SearchResult.item "cover" d
     = Some (match cover e with
             | Some (String c p) => VStr (MEDIA_FULL_URL ++ String c p)
             | Some EmptyString => VNone
             | None => VNone
             end)
  /\ SearchResult.item "confidence" d
     = Some (match Orm.get "rank" search_result with
             | Some SqlNull => VNone
             | Some (SqlInt z) => VInt z
             | Some (SqlFloat q) => VFloat q
             | None => VInt 1
             end).
Proof.
  intros e d. subst d e. unfold format_search_result, cover_name.
  destruct (cover (obj search_result)) as [[|c p]|];
    destruct (Orm.get "rank" search_result) as [[| |]|];
    repeat split.
Qed.

End Format.

Example format_philosophers_stone :
  format_search_result
    (Demo.row Demo.philosophers_stone [("rank", SqlFloat (3 # 10))])
  = [ ("title", VStr "Harry Potter and the Philosopher's Stone");
      ("key", VStr "https://example.net/book/1");
      ("view_link", VNone);
      ("author", VStr "J. K. Rowling");
      ("year", VInt 1997);
      ("cover", VStr "https://example.net/images/covers/stone.jpg");
      ("confidence", VFloat (3 # 10)) ].
Proof. reflexivity. Qed.

Example format_without_cover_or_rank :
  format_search_result (Demo.row Demo.moby_dick [])
  = [ ("title", VStr "Moby Dick");
      ("key", VStr "https://example.net/book/3");
      ("view_link", VNone);
      ("author", VStr "Herman Melville");
      ("year", VNone);
      ("cover", VNone);
      ("confidence", VInt 1) ].
Proof. reflexivity. Qed.

(** ** The dispatch of [_generic_search] *)

Section Dispatch.
Context `{Collaborators}.

(** What [_generic_search] does with a query that is not empty, by the
    shape of the stripped query. *)
Lemma generic_search_unfold query mc filters rf dedup start table :
  query <> "" ->
  _generic_search query mc filters rf dedup start table
  = let q := PyStr.strip query in
    if PyStr.contains_char " "%char q
    then ([CallSearchTitleAuthor q],
          search_title_author q mc filters rf true start table)
    else match search_identifiers q filters rf start table with
         | Ok r =>
             if Orm.truthy r then ([CallSearchIdentifiers q], Ok r)
             else ([CallSearchIdentifiers q; CallSearchTitleAuthor q],
                   search_title_author q mc filters rf true start table)
         | Raise e => ([CallSearchIdentifiers q], Raise e)
         end.
Proof.
  intros Hne. unfold _generic_search.
  destruct query as [|c query]; [congruence|].
  cbv zeta. simpl PyStr.truthy. simpl negb. cbv iota.
  destruct (PyStr.contains_char " " (PyStr.strip (String c query))); simpl.
  - reflexivity.
  - destruct (search_identifiers _ _ _ _ _) as [r|e]; [|reflexivity].
    destruct (Orm.truthy r); reflexivity.
Qed.

(** The [dedup] argument has no effect on [_generic_search]. *)
Lemma generic_search_ignores_dedup query mc filters rf dedup dedup' start table :
  _generic_search query mc filters rf dedup start table
  = _generic_search query mc filters rf dedup' start table.
Proof. reflexivity. Qed.

(** C6. In the dispatch of [search], a stripped query with a space goes
    to the text search alone, the identifier lookup is not called; a
    stripped query without a space goes to the identifier lookup first,
    and the text search is called only when that lookup returned nothing
    (an empty queryset or [None]). *)
Theorem search_dispatch query mc filters rf table :
  query <> "" ->
  let q := PyStr.strip query in
  let fs := or_empty filters in
  (PyStr.contains_char " "%char q = true ->
     search query mc filters rf table
     = ([CallSearchTitleAuthor q],
        search_title_author q mc fs rf true None table))
  /\ (PyStr.contains_char " "%char q = false ->
        match search_identifiers q fs rf None table with
        | Ok r =>
            if Orm.truthy r
            then search query mc filters rf table
                 = ([CallSearchIdentifiers q], Ok r)
            else search query mc filters rf table
                 = ([CallSearchIdentifiers q; CallSearchTitleAuthor q],
                    search_title_author q mc fs rf true None table)
        | Raise e =>
            search query mc filters rf table
            = ([CallSearchIdentifiers q], Raise e)
        end).
Proof.
  intros Hne q fs. unfold search. fold fs.
  rewrite (generic_search_unfold _ _ _ _ _ _ _ Hne). fold q. cbv zeta.
  split; intros Hsp; rewrite Hsp; [reflexivity|].
  destruct (search_identifiers q fs rf None table) as [r|e]; [|reflexivity].
  destruct (Orm.truthy r); reflexivity.
Qed.

(** C2, as the code has it.  The empty query returns the empty list at
    once: no lookup is called and nothing is raised.  A non-empty query
    of white space only passes the guard, is stripped to the empty string
    and goes to the identifier lookup, and to the text search when that
    lookup returns nothing. *)
Theorem search_blank_query q mc filters rf table :
  PyStr.all_space q = true ->
  match q with
  | EmptyString => search q mc filters rf table = ([], Ok (PyList []))
  | String _ _ =>
      let fs := or_empty filters in
      search q mc filters rf table
      = match search_identifiers "" fs rf None table with
        | Ok r =>
            if Orm.truthy r then ([CallSearchIdentifiers ""], Ok r)
            else ([CallSearchIdentifiers ""; CallSearchTitleAuthor ""],
                  search_title_author "" mc fs rf true None table)
        | Raise e => ([CallSearchIdentifiers ""], Raise e)
        end
  end.
Proof.
  intros Hws. destruct q as [|c q]; [reflexivity|].
  cbv zeta. unfold search.
  rewrite generic_search_unfold by discriminate.
  rewrite (PyStrFacts.all_space_strip _ Hws). reflexivity.
Qed.

(** [search_user_shelves] runs the same text search as [search] does,
    with the work deduplication on. *)
Lemma search_user_shelves_text_path query user mc filters rf start table :
  query <> "" ->
  PyStr.contains_char " "%char (PyStr.strip query) = true ->
  snd (search_user_shelves query user mc filters rf start table)
  = search_title_author (PyStr.strip query) mc
      (or_empty filters ++ [Q_shelfbook_user user]) rf true start table.
Proof.
  intros Hne Hsp. unfold search_user_shelves.
  rewrite (generic_search_unfold _ _ _ _ _ _ _ Hne). cbv zeta.
  now rewrite Hsp.
Qed.

End Dispatch.

Lemma search_dispatch_witness :
  search "harry potter" 0%Q None false [Demo.philosophers_stone]
  = ([CallSearchTitleAuthor "harry potter"],
     search_title_author "harry potter" 0%Q [] false true None
       [Demo.philosophers_stone]).
Proof.
  destruct (search_dispatch "harry potter" 0%Q None false
              [Demo.philosophers_stone]) as [Hspace _].
  - discriminate.
  - apply Hspace. reflexivity.
Defined.

Example search_dispatch_identifier_found :
  search " 747532699 " 0%Q None false Demo.catalogue
  = ([CallSearchIdentifiers "747532699"],
     Ok (QuerySet [Demo.row Demo.philosophers_stone []])).
Proof. reflexivity. Qed.

Example search_dispatch_identifier_fallback :
  fst (search "rowling" 0%Q None false Demo.catalogue)
  = [CallSearchIdentifiers "rowling"; CallSearchTitleAuthor "rowling"].
Proof. reflexivity. Qed.

Lemma search_blank_query_witness :
  search "   " 0%Q None false []
  = ([CallSearchIdentifiers ""; CallSearchTitleAuthor ""], Ok (QuerySet [])).
Proof.
  rewrite (search_blank_query "   " 0%Q None false []) by reflexivity.
  reflexivity.
Defined.

(** C2, as the specification has it, fails: for a query of three spaces
    both lookups are called. *)
Lemma search_whitespace_calls_lookups :
  PyStr.all_space "   " = true
  /\ fst (search "   " 0%Q None false Demo.catalogue)
     = [CallSearchIdentifiers ""; CallSearchTitleAuthor ""]
  /\ search "   " 0%Q None false Demo.catalogue <> ([], Ok (PyList [])).
Proof. repeat split. discriminate. Qed.

(** C1 at a failing input.  Two editions of one work are on the shelves of
    user 7 and both match the query.  [search_user_shelves] asks for
    [dedup=False], [_generic_search] does not pass it on, and the
    deduplicating branch of [search_title_author] runs: the two editions
    are not returned.  Called with [dedup=False], [search_title_author]
    returns both. *)
Theorem search_user_shelves_runs_dedup :
  search_user_shelves "harry potter" 7%Z 0%Q None false None Demo.shelf_table
  = ([CallSearchTitleAuthor "harry potter"],
     search_title_author "harry potter" 0%Q [Q_shelfbook_user 7%Z]
       false true None Demo.shelf_table)
  /\ search_title_author "harry potter" 0%Q [Q_shelfbook_user 7%Z]
       false true None Demo.shelf_table
     = Raise ProgrammingError
  /\ search_title_author "harry potter" 0%Q [Q_shelfbook_user 7%Z]
       false false None Demo.shelf_table
     = Ok (QuerySet [ Demo.row Demo.philosophers_stone [("rank", SqlFloat (2 # 10))];
                      Demo.row Demo.sorcerers_stone [("rank", SqlFloat (2 # 10))] ]).
Proof. repeat split. Qed.

(** ** The text search: ranking *)

Module RankFacts.
Import Orm.

Lemma value_ltb_irrefl v : value_ltb v v = false.
Proof.
  unfold value_ltb. destruct (as_Q v) as [x|]; [|reflexivity].
  apply negb_false_iff, Qle_bool_iff, Qle_refl.
Qed.

Lemma value_ltb_asym a b : value_ltb a b = true -> value_ltb b a = false.
Proof.
  unfold value_ltb. destruct (as_Q a) as [x|], (as_Q b) as [y|];
    try reflexivity; try discriminate.
  intros Hlt. apply negb_true_iff in Hlt.
  apply negb_false_iff, Qle_bool_iff.
  destruct (Qlt_le_dec x y) as [Hxy|Hyx].
  - now apply Qlt_le_weak.
  - apply Qle_bool_iff in Hyx. congruence.
Qed.

Lemma value_ltb_false_trans a b c :
  value_ltb a b = false -> value_ltb b c = false -> value_ltb a c = false.
Proof.
  unfold value_ltb.
  destruct (as_Q a) as [x|], (as_Q b) as [y|], (as_Q c) as [z|];
    try reflexivity; try discriminate.
  intros Hab Hbc.
  apply negb_false_iff, Qle_bool_iff in Hab.
  apply negb_false_iff, Qle_bool_iff in Hbc.
  apply negb_false_iff, Qle_bool_iff. now apply Qle_trans with y.
Qed.

Lemma insert_desc_In name x l r :
  In r (insert_desc name x l) <-> r = x \/ In r l.
Proof.
  induction l as [|a l IH]; simpl.
  - intuition congruence.
  - destruct (value_ltb (key_of name x) (key_of name a)); simpl.
    + rewrite IH. intuition congruence.
    + intuition congruence.
Qed.

Lemma order_by_desc_In name l r : In r (order_by_desc name l) <-> In r l.
Proof.
  unfold order_by_desc. induction l as [|a l IH]; simpl; [tauto|].
  rewrite insert_desc_In, IH. intuition congruence.
Qed.

Lemma insert_desc_length name x l :
  List.length (insert_desc name x l) = S (List.length l).
Proof.
  induction l as [|a l IH]; simpl; [reflexivity|].
  destruct (value_ltb _ _); simpl; congruence.
Qed.

Lemma order_by_desc_length name l :
  List.length (order_by_desc name l) = List.length l.
Proof.
  unfold order_by_desc. induction l as [|a l IH]; simpl; [reflexivity|].
  now rewrite insert_desc_length, IH.
Qed.

Lemma insert_desc_sorted name x l :
  StronglySorted (fun a b => value_ltb (key_of name a) (key_of name b) = false) l ->
  StronglySorted (fun a b => value_ltb (key_of name a) (key_of name b) = false)
    (insert_desc name x l).
Proof.
  induction 1 as [|a l Hs IH Ha]; simpl.
  - constructor; constructor.
  - destruct (value_ltb (key_of name x) (key_of name a)) eqn:E.
    + constructor; [exact IH|].
      apply Forall_forall. intros r Hr.
      apply insert_desc_In in Hr as [->|Hr].
      * now apply value_ltb_asym.
      * rewrite Forall_forall in Ha. now apply Ha.
    + constructor; [now constructor|].
      constructor; [exact E|].
      apply Forall_forall. intros r Hr.
      rewrite Forall_forall in Ha.
      apply value_ltb_false_trans with (key_of name a); auto.
Qed.

Lemma order_by_desc_sorted name l :
  StronglySorted (fun a b => value_ltb (key_of name a) (key_of name b) = false)
    (order_by_desc name l).
Proof.
  unfold order_by_desc. induction l as [|a l IH]; simpl.
  - constructor.
  - now apply insert_desc_sorted.
Qed.

Lemma StronglySorted_on {A} (R R' : A -> A -> Prop) l :
  (forall a b, In a l -> In b l -> R a b -> R' a b) ->
  StronglySorted R l -> StronglySorted R' l.
Proof.
  intros Himp Hs. induction Hs as [|a l Hs IH Ha].
  - constructor.
  - constructor.
    + apply IH. intros x y Hx Hy. apply Himp; now right.
    + rewrite Forall_forall in *. intros x Hx.
      apply Himp; [now left|now right|now apply Ha].
Qed.

Lemma filter_length_le {A} (f : A -> bool) l :
  (List.length (filter f l) <= List.length l)%nat.
Proof.
  induction l as [|a l IH]; simpl; [lia|]. destruct (f a); simpl; lia.
Qed.

Lemma mapM_length {A B} (f : A -> outcome B) l l' :
  mapM f l = Ok l' -> List.length l' = List.length l.
Proof.
  revert l'. induction l as [|a l IH]; simpl; intros l' E.
  - now inversion E.
  - destruct (f a) as [b|]; simpl in E; [|discriminate].
    destruct (mapM f l) as [bs|]; simpl in E; [|discriminate].
    inversion E. simpl. f_equal. now apply IH.
Qed.

Lemma scalar_ok sub v :
  scalar sub = Ok v -> exists vs, sub = Ok vs /\ (List.length vs <= 1)%nat.
Proof.
  unfold scalar. destruct sub as [vs|]; simpl; [|discriminate].
  intros E. exists vs. split; [reflexivity|].
  destruct vs as [|a [|b vs]]; simpl; try lia. discriminate.
Qed.

Lemma annotate_subquery_ok name sub rows rows' :
  annotate_subquery name sub rows = Ok rows' ->
  List.length rows' = List.length rows
  /\ (rows <> [] -> exists v, scalar sub = Ok v
                            /\ rows' = map (set name v) rows).
Proof.
  intros E. split; [now apply mapM_length in E|].
  intros Hne. unfold annotate_subquery in E.
  destruct (scalar sub) as [v|e] eqn:Es.
  - exists v. split; [reflexivity|].
    clear Hne. revert rows' E.
    induction rows as [|r rows IH]; simpl; intros rows' E.
    + now inversion E.
    + destruct (mapM _ rows) as [bs|]; simpl in E; [|discriminate].
      inversion E. f_equal. now apply IH.
  - destruct rows as [|r rows]; simpl in E; [congruence|discriminate].
Qed.

End RankFacts.

Section TextSearch.
Context `{Collaborators}.

Lemma objects_of_annotations start table r :
  In r (objects_of start table) -> annotations r = [].
Proof.
  unfold objects_of. destruct start as [[|e l]|]; intros Hr;
    now apply OrmFacts.all_In in Hr.
Qed.

(** Every row of [results] carries its relevance as [rank], passed the
    filters and the text match, and ranks above [min_confidence]. *)
Lemma ranked_results_row query mc filters start table r :
  In r (ranked_results query mc filters start table) ->
  annotations r = [("rank", SqlFloat (relevance query r))]
  /\ (mc < relevance query r)%Q
  /\ forallb (fun q : Qobj => q (obj r)) filters = true
  /\ search_vector_matches (search_vector (obj r)) (text_query query) = true
  /\ In {| obj := obj r; annotations := [] |} (objects_of start table).
Proof.
  unfold ranked_results. intros Hr.
  apply RankFacts.order_by_desc_In in Hr.
  apply filter_In in Hr as [Hr Hgt].
  unfold Orm.annotate in Hr. apply in_map_iff in Hr as [r0 [<- Hr0]].
  apply filter_In in Hr0 as [Hr0 Hf].
  apply andb_true_iff in Hf as [Hf Hm].
  pose proof (objects_of_annotations _ _ _ Hr0) as Ha.
  unfold relevance. simpl. rewrite Ha.
  split; [reflexivity|]. split.
  - unfold Orm.gt, Orm.get in Hgt. simpl in Hgt.
    apply negb_true_iff in Hgt.
    apply Qnot_le_lt. intros Hle. apply Qle_bool_iff in Hle. congruence.
  - repeat split; try assumption.
    destruct r0 as [e a]; simpl in *. now subst a.
Qed.

Lemma ranked_results_sorted query mc filters start table :
  StronglySorted (fun a b => (relevance query b <= relevance query a)%Q)
    (ranked_results query mc filters start table).
Proof.
  apply RankFacts.StronglySorted_on with
    (R := fun a b =>
            Orm.value_ltb (Orm.key_of "rank" a) (Orm.key_of "rank" b) = false).
  - intros a b Ha Hb.
    apply ranked_results_row in Ha as [Ha _].
    apply ranked_results_row in Hb as [Hb _].
    unfold Orm.key_of, Orm.get. rewrite Ha, Hb. simpl.
    unfold Orm.value_ltb. simpl. intros E.
    now apply negb_false_iff, Qle_bool_iff in E.
  - unfold ranked_results. apply RankFacts.order_by_desc_sorted.
Qed.

(** The deduplicating branch gives rows only when [Edition] has at most
    one row: its last subquery has a row for each row of the table and is
    used as one value. *)
Lemma dedup_needs_small_table query mc filters rf start table res :
  search_title_author query mc filters rf true start table = Ok res ->
  (List.length table <= 1)%nat.
Proof.
  unfold search_title_author. simpl negb. cbv iota.
  set (results := ranked_results query mc filters start table).
  set (subquery := bind (Orm.annotate_subquery "search_rank" _ _) _).
  destruct (Orm.annotate_subquery "rank" _ (Orm.all table)) as [rows|e] eqn:E;
    simpl; [|discriminate].
  intros _.
  destruct table as [|e0 table]; [simpl; lia|].
  apply RankFacts.annotate_subquery_ok in E as [_ E].
  destruct E as [v [Hv _]]; [discriminate|].
  apply RankFacts.scalar_ok in Hv as [vs [Hvs Hlen]].
  subst subquery.
  destruct (Orm.annotate_subquery "search_rank" _ _) as [rows0|e] eqn:E0;
    simpl in Hvs; [|discriminate].
  apply RankFacts.mapM_length in E0.
  inversion Hvs as [Hvs']. rewrite <- Hvs' in Hlen.
  unfold Orm.values, Orm.annotate_window in Hlen.
  rewrite !length_map, E0, OrmFacts.all_length in Hlen. exact Hlen.
Qed.

Lemma dedup_rows_small query mc filters start table rows :
  search_title_author query mc filters false true start table = Ok (QuerySet rows) ->
  (List.length rows <= 1)%nat.
Proof.
  intros E. pose proof (dedup_needs_small_table _ _ _ _ _ _ _ E) as Hlen.
  unfold search_title_author in E. simpl negb in E. cbv iota in E.
  destruct (Orm.annotate_subquery "rank" _ (Orm.all table)) as [rows1|e] eqn:E1;
    simpl in E; [|discriminate].
  inversion E as [Hrows].
  apply RankFacts.mapM_length in E1. rewrite OrmFacts.all_length in E1.
  pose proof (RankFacts.filter_length_le (Orm.exact "rank" 1%Q) rows1). lia.
Qed.

(** On a table of one edition the deduplicating branch returns that
    edition, with the window rank 1 as its [rank], whatever the query and
    whether or not the edition matches it. *)
Lemma dedup_single_row_table query mc filters rf e :
  search_title_author query mc filters rf true None [e]
  = Ok (if rf
        then Instance {| obj := e; annotations := [("rank", SqlInt 1)] |}
        else QuerySet [{| obj := e; annotations := [("rank", SqlInt 1)] |}]).
Proof.
  unfold search_title_author. simpl negb. cbv iota.
  set (results := ranked_results query mc filters None [e]).
  assert (Hres : (List.length (Orm.values "rank" results) <= 1)%nat).
  { unfold Orm.values, results, ranked_results, Orm.annotate.
    rewrite length_map, RankFacts.order_by_desc_length.
    eapply Nat.le_trans; [apply RankFacts.filter_length_le|].
    rewrite length_map.
    eapply Nat.le_trans; [apply RankFacts.filter_length_le|].
    simpl. lia. }
  destruct (Orm.values "rank" results) as [|v [|v' vs]];
    [| |simpl in Hres; lia];
    simpl; unfold Orm.annotate_window, Orm.window_rank, Orm.key_of; simpl;
    rewrite Z.eqb_refl, RankFacts.value_ltb_irrefl; simpl;
    destruct rf; reflexivity.
Qed.

(** A text search of [search] that gave rows ran the deduplicating branch. *)
Lemma search_text_rows query mc filters rf table res :
  search query mc filters rf table
  = ([CallSearchTitleAuthor (PyStr.strip query)], Ok res) ->
  search_title_author (PyStr.strip query) mc (or_empty filters) rf true None table
  = Ok res.
Proof.
  intros E. destruct query as [|c query]; [discriminate|].
  unfold search in E. rewrite generic_search_unfold in E by discriminate.
  cbv zeta in E.
  destruct (PyStr.contains_char " " (PyStr.strip (String c query))).
  - now inversion E.
  - destruct (search_identifiers _ _ _ _ _) as [r|e]; [|discriminate].
    destruct (Orm.truthy r); discriminate.
Qed.

End TextSearch.

(** ** The text search: what is returned *)

Section TextSearchClaims.
Context `{Collaborators}.

(** The raw ranked sequence holds no row of rank at or below
    [min_confidence]. *)
Lemma ranked_results_above_min_confidence query mc filters start table r :
  In r (ranked_results query mc filters start table) ->
  Orm.get "rank" r = Some (SqlFloat (relevance query r))
  /\ ~ (relevance query r <= mc)%Q.
Proof.
  intros Hr. apply ranked_results_row in Hr as [Ha [Hlt _]]. split.
  - unfold Orm.get. rewrite Ha. reflexivity.
  - now apply Qlt_not_le.
Qed.

(** The rows of the text ranker come in non-increasing order of rank, the
    rank being the relevance [SearchRank] gives, and they are what the
    branch [dedup=False] returns. *)
Lemma text_ranker_descending_rank query mc filters start table :
  StronglySorted (fun a b => (relevance query b <= relevance query a)%Q)
    (ranked_results query mc filters start table)
  /\ (forall r, In r (ranked_results query mc filters start table) ->
        Orm.get "rank" r = Some (SqlFloat (relevance query r)))
  /\ search_title_author query mc filters false false start table
     = Ok (QuerySet (ranked_results query mc filters start table)).
Proof.
  split; [apply ranked_results_sorted|]. split; [|reflexivity].
  intros r Hr. now apply ranked_results_above_min_confidence in Hr.
Qed.

(** The window of the deduplicating branch orders each partition by
    [search_rank], and [search_rank] is one value for all rows: every row
    is first in its partition, so [rank=1] keeps every edition of every
    work. *)
Lemma window_keeps_every_edition (part : Row -> Z) (v : value) rows :
  Orm.annotate_window "rank" part (Orm.key_of "search_rank")
    (map (Orm.set "search_rank" v) rows)
  = map (fun r => Orm.set "rank" (SqlInt 1) (Orm.set "search_rank" v r)) rows.
Proof.
  unfold Orm.annotate_window. rewrite map_map.
  apply map_ext. intros r. f_equal.
  unfold Orm.window_rank.
  replace (filter _ (map (Orm.set "search_rank" v) rows)) with (@nil Row);
    [reflexivity|].
  symmetry. induction rows as [|x rows IH]; [reflexivity|].
  cbn [map filter].
  replace (Orm.value_ltb (Orm.key_of "search_rank" (Orm.set "search_rank" v x))
             (Orm.key_of "search_rank" (Orm.set "search_rank" v r)))
    with false.
  - rewrite andb_false_r. exact IH.
  - symmetry. unfold Orm.key_of, Orm.get. simpl.
    apply RankFacts.value_ltb_irrefl.
Qed.

(** When the deduplicating branch gives rows, they are rows of the table,
    in the order of the table, all with one and the same [rank]: the
    relevance is neither their annotation nor their order. *)
Lemma dedup_rows_in_table_order query mc filters start table rows :
  search_title_author query mc filters false true start table
  = Ok (QuerySet rows) ->
  exists v,
    rows = filter (Orm.exact "rank" 1%Q)
             (map (Orm.set "rank" v) (Orm.all table)).
Proof.
  unfold search_title_author. simpl negb. cbv iota.
  destruct (Orm.annotate_subquery "rank" _ (Orm.all table)) as [rows1|e] eqn:E;
    simpl; [|discriminate].
  intros Hrows. inversion Hrows as [Hr]. clear Hrows.
  apply RankFacts.annotate_subquery_ok in E as [Hlen E].
  destruct table as [|e0 table].
  - exists SqlNull. destruct rows1; [reflexivity|discriminate].
  - destruct E as [v [_ ->]]; [discriminate|]. now exists v.
Qed.

End TextSearchClaims.

(** C3 at a failing input.  The table holds two editions of one work and
    both match the query.  The contract of the Work Deduplicator is to keep
    the top-ranked edition of the work; the query the branch builds is
    refused by the engine instead, and no result set comes back.  The
    window does not tell the two editions apart either: for a query that
    only the second edition matches, [search_rank] is the same value on
    both rows and both get the window rank 1, after which the engine
    refuses the outer subquery, which has these two rows. *)
Theorem dedup_two_editions_of_one_work :
  ranked_results "harry potter" 0%Q [] None Demo.shelf_table
  = [ Demo.row Demo.philosophers_stone [("rank", SqlFloat (2 # 10))];
      Demo.row Demo.sorcerers_stone [("rank", SqlFloat (2 # 10))] ]
  /\ parent_work Demo.philosophers_stone = parent_work Demo.sorcerers_stone
  /\ search "harry potter" 0%Q None false Demo.shelf_table
     = ([CallSearchTitleAuthor "harry potter"], Raise ProgrammingError)
  /\ ranked_results "the sorcerer" 0%Q [] None Demo.shelf_table
     = [ Demo.row Demo.sorcerers_stone [("rank", SqlFloat (1 # 10))] ]
  /\ Orm.values "rank"
       (Orm.annotate_window "rank" (fun r => parent_work (obj r))
          (Orm.key_of "search_rank")
          (map (Orm.set "search_rank" (SqlFloat (1 # 10)))
               (Orm.all Demo.shelf_table)))
     = [SqlInt 1; SqlInt 1]
  /\ search "the sorcerer" 0%Q None false Demo.shelf_table
     = ([CallSearchTitleAuthor "the sorcerer"], Raise ProgrammingError).
Proof. repeat split. Qed.

(** C5 at a failing input.  The table holds editions of two works, in the
    order Moby Dick, Philosopher's Stone; both match the query, the second
    with the higher rank.  The text ranker puts them in descending order of
    rank, and the branch [dedup=False] returns them so; [search], which
    takes the deduplicating branch, returns no result set in that order:
    the query is refused by the engine. *)
Theorem dedup_loses_rank_order :
  ranked_results "harry potter moby" 0%Q [] None
    [Demo.moby_dick; Demo.philosophers_stone]
  = [ Demo.row Demo.philosophers_stone [("rank", SqlFloat (2 # 10))];
      Demo.row Demo.moby_dick [("rank", SqlFloat (1 # 10))] ]
  /\ parent_work Demo.philosophers_stone <> parent_work Demo.moby_dick
  /\ search_title_author "harry potter moby" 0%Q [] false false None
       [Demo.moby_dick; Demo.philosophers_stone]
     = Ok (QuerySet
             [ Demo.row Demo.philosophers_stone [("rank", SqlFloat (2 # 10))];
               Demo.row Demo.moby_dick [("rank", SqlFloat (1 # 10))] ])
  /\ search "harry potter moby" 0%Q None false
       [Demo.moby_dick; Demo.philosophers_stone]
     = ([CallSearchTitleAuthor "harry potter moby"], Raise ProgrammingError).
Proof. repeat split. discriminate. Qed.

Example ranked_results_in_order :
  map (fun r => (id (obj r), Orm.get "rank" r))
      (ranked_results "stone philosopher potter" 0%Q [] None Demo.catalogue)
  = [ (1%Z, Some (SqlFloat (3 # 10))); (2%Z, Some (SqlFloat (2 # 10))) ].
Proof. reflexivity. Qed.

(** C4 at a failing input.  The table holds one edition, which does not
    match the query: the ranked sequence is empty, and [search] returns the
    edition all the same, with the window rank 1 as its [rank].  Its
    relevance is 0 and its [rank] is 1, neither above the
    [min_confidence] of 1. *)
Theorem search_returns_unmatched_edition :
  search "harry potter" 1%Q None false [Demo.moby_dick]
  = ([CallSearchTitleAuthor "harry potter"],
     Ok (QuerySet [Demo.row Demo.moby_dick [("rank", SqlInt 1)]]))
  /\ ranked_results "harry potter" 1%Q [] None [Demo.moby_dick] = []
  /\ search_vector_matches (search_vector Demo.moby_dick)
       (text_query "harry potter") = false
  /\ (relevance "harry potter"
        (Demo.row Demo.moby_dick [("rank", SqlInt 1)]) <= 1)%Q
  /\ Orm.gt "rank" 1%Q (Demo.row Demo.moby_dick [("rank", SqlInt 1)]) = false
  /\ fst (search "harry potter" 0%Q None false [Demo.moby_dick])
     = [CallSearchTitleAuthor "harry potter"]
  /\ snd (search "harry potter" 0%Q None false [Demo.moby_dick])
     = Ok (QuerySet [Demo.row Demo.moby_dick [("rank", SqlInt 1)]]).
Proof.
  repeat split. discriminate.
Qed.

(** ** Further facts: [distinct], [first] and [reduce] *)

Module LookupFacts.
Import Orm.

Lemma NoDup_map_filter {A B} (f : A -> B) (p : A -> bool) l :
  NoDup (map f l) -> NoDup (map f (filter p l)).
Proof.
  induction l as [|a l IH]; simpl; intros Hnd; [constructor|].
  inversion Hnd as [|? ? Hnotin Hnd']; subst.
  destruct (p a); simpl; [|now apply IH].
  constructor; [|now apply IH].
  intros Hin. apply Hnotin.
  apply in_map_iff in Hin as [x [Hx Hin]].
  apply filter_In in Hin as [Hin _].
  apply in_map_iff. now exists x.
Qed.

Lemma distinct_NoDup rows : NoDup (map (fun r => id (obj r)) (distinct rows)).
Proof.
  induction rows as [|a rows IH]; simpl; [constructor|].
  constructor.
  - intros Hin. apply in_map_iff in Hin as [x [Hx Hin]].
    apply filter_In in Hin as [_ Hne].
    apply negb_true_iff, Z.eqb_neq in Hne. congruence.
  - now apply NoDup_map_filter.
Qed.

Lemma insert_pk_In r x l : In r (insert_pk x l) <-> r = x \/ In r l.
Proof.
  induction l as [|a l IH]; simpl.
  - intuition congruence.
  - destruct (Z.ltb (id (obj a)) (id (obj x))); simpl.
    + rewrite IH. intuition congruence.
    + intuition congruence.
Qed.

Lemma sort_pk_In r rows : In r (fold_right insert_pk [] rows) <-> In r rows.
Proof.
  induction rows as [|a rows IH]; simpl; [tauto|].
  rewrite insert_pk_In, IH. intuition congruence.
Qed.

Lemma insert_pk_head x l :
  match l with
  | [] => True
  | h :: _ => forall r, In r l -> (id (obj h) <= id (obj r))%Z
  end ->
  match insert_pk x l with
  | [] => False
  | h :: _ => forall r, In r (insert_pk x l) -> (id (obj h) <= id (obj r))%Z
  end.
Proof.
  destruct l as [|a l]; simpl.
  - intros _ r [<-|[]]. lia.
  - intros Hmin. destruct (Z.ltb (id (obj a)) (id (obj x))) eqn:E.
    + intros r [<-|Hr]; [lia|].
      apply insert_pk_In in Hr as [->|Hr].
      * apply Z.ltb_lt in E. lia.
      * apply Hmin. now right.
    + apply Z.ltb_ge in E. intros r [<-|Hr]; [lia|].
      specialize (Hmin r Hr). lia.
Qed.

Lemma sort_pk_head rows :
  match fold_right insert_pk [] rows with
  | [] => rows = []
  | h :: _ => forall r, In r rows -> (id (obj h) <= id (obj r))%Z
  end.
Proof.
  induction rows as [|a rows IH]; simpl; [reflexivity|].
  pose proof (insert_pk_head a (fold_right insert_pk [] rows)) as Hh.
  assert (Hpre : match fold_right insert_pk [] rows with
                 | [] => True
                 | h :: _ =>
                     forall r, In r (fold_right insert_pk [] rows) ->
                               (id (obj h) <= id (obj r))%Z
                 end).
  { destruct (fold_right insert_pk [] rows) as [|h0 t0] eqn:E0; [exact I|].
    intros x Hx. apply IH. apply sort_pk_In. now rewrite E0. }
  specialize (Hh Hpre).
  destruct (insert_pk a (fold_right insert_pk [] rows)) as [|h t] eqn:E;
    [contradiction|].
  intros x Hx. apply Hh. rewrite <- E. apply insert_pk_In.
  destruct Hx as [<-|Hx]; [now left|right; now apply sort_pk_In].
Qed.

(** [.first()]: [None] for the empty queryset only, and otherwise a row of
    the queryset whose primary key is the least. *)
Lemma first_spec rows :
  match first rows with
  | PyNone => rows = []
  | Instance r =>
      In r rows /\ forall r', In r' rows -> (id (obj r) <= id (obj r'))%Z
  | _ => False
  end.
Proof.
  unfold first. pose proof (sort_pk_head rows) as Hh.
  destruct (fold_right insert_pk [] rows) as [|h t] eqn:E; [exact Hh|].
  split; [|exact Hh].
  apply sort_pk_In. rewrite E. now left.
Qed.

Lemma fold_or_spec (qs : list Qobj) (q : Qobj) e :
  fold_left (fun (acc : Qobj) (q' : Qobj) => fun e => acc e || q' e) qs q e
  = q e || existsb (fun q' : Qobj => q' e) qs.
Proof.
  revert q. induction qs as [|a qs IH]; simpl; intros q.
  - now rewrite orb_false_r.
  - rewrite IH. now rewrite orb_assoc.
Qed.

Lemma reduce_or_spec qs f :
  reduce_or qs = Ok f -> forall e, f e = existsb (fun q : Qobj => q e) qs.
Proof.
  destruct qs as [|q qs]; simpl; [discriminate|].
  intros E e. inversion E. apply fold_or_spec.
Qed.

Lemma reduce_or_ok qs : qs <> [] -> exists f, reduce_or qs = Ok f.
Proof. destruct qs; [congruence|]. intros _. eexists. reflexivity. Qed.

End LookupFacts.

(** ** Further facts: ISBN keys and the identifier lookup *)


(** X2.  The keys left unchanged are the upper-case strings of ten characters
    or more with no white space at their ends: an ISBN-13 passes as it
    is. *)
Theorem normalize_isbn_fixed_points (s : string) :
  normalize_isbn s = s
  <-> PyStr.stripped s /\ PyStr.upper s = s /\ 10 <= length s.
Proof.
  split.
  - intros E. split; [|split].
    + rewrite <- E. apply PyStrFacts.normalize_isbn_stripped.
    + rewrite <- E at 1. unfold normalize_isbn at 1.
      rewrite PyStrFacts.upper_rjust_zero, PyStrFacts.upper_idem. exact E.
    + rewrite <- E. unfold normalize_isbn. apply PyStrFacts.rjust_length.
  - intros [Hs [Hu Hlen]]. unfold normalize_isbn.
    rewrite (PyStrFacts.stripped_strip _ Hs), Hu.
    now apply PyStrFacts.rjust_long.
Qed.

Lemma upper_empty s : PyStr.upper s = "" -> s = "".
Proof. destruct s; [reflexivity|discriminate]. Qed.

Lemma normalize_isbn_by_upper_strip q q' :
  PyStr.upper (PyStr.strip q) = PyStr.upper (PyStr.strip q') ->
  normalize_isbn q = normalize_isbn q'.
Proof. unfold normalize_isbn. now intros ->. Qed.

Section IdentifierLookup.
Context `{Collaborators}.

(** X3.  [isbn_search] does not tell apart two non-empty queries that differ
    in letter case or in white space around them. *)
Theorem isbn_search_case_and_space q q' table :
  q <> "" -> q' <> "" ->
  PyStr.upper (PyStr.strip q) = PyStr.upper (PyStr.strip q') ->
  isbn_search q table = isbn_search q' table.
Proof.
  intros Hq Hq' E. unfold isbn_search.
  destruct q as [|c q]; [congruence|].
  destruct q' as [|c' q']; [congruence|].
  simpl PyStr.truthy. cbv iota beta. simpl negb. cbv iota.
  now rewrite (normalize_isbn_by_upper_strip _ _ E).
Qed.

(** X4.  For a query that is not empty [isbn_search] returns a queryset: its
    rows are rows of the table whose [isbn_10] or [isbn_13] is the key,
    every such edition of the table is among them, they carry no
    annotation, and no primary key comes twice. *)
Theorem isbn_search_rows q table :
  q <> "" ->
  exists rows,
    isbn_search q table = QuerySet rows
    /\ (forall r, In r rows ->
          In (obj r) table /\ annotations r = []
          /\ (isbn_10 (obj r) = Some (normalize_isbn q)
              \/ isbn_13 (obj r) = Some (normalize_isbn q)))
    /\ (forall e, In e table ->
          isbn_10 e = Some (normalize_isbn q)
          \/ isbn_13 e = Some (normalize_isbn q) ->
          exists r, In r rows /\ id (obj r) = id e)
    /\ NoDup (map (fun r => id (obj r)) rows).
Proof.
  intros Hq. unfold isbn_search. destruct q as [|c q]; [congruence|].
  simpl PyStr.truthy. cbv iota beta. simpl negb. cbv iota.
  eexists. split; [reflexivity|]. split; [|split].
  - intros r Hr. apply OrmFacts.distinct_In in Hr.
    apply filter_In in Hr as [Hr Hk].
    apply OrmFacts.all_In in Hr as [Hr Ha].
    split; [exact Hr|]. split; [exact Ha|].
    apply orb_true_iff in Hk.
    now rewrite !OrmFacts.option_string_eqb_true in Hk.
  - intros e He Hk.
    apply (OrmFacts.distinct_complete {| obj := e; annotations := [] |}).
    apply filter_In. split.
    + apply OrmFacts.all_In. auto.
    + simpl. apply orb_true_iff.
      now rewrite !OrmFacts.option_string_eqb_true.
  - apply LookupFacts.distinct_NoDup.
Qed.

Lemma dedup_field_matches (key : string) (e : Edition) :
  existsb (fun q : Qobj => q e)
    (map (fun f : Edition -> option string =>
            fun e' : Edition => Orm.option_string_eqb (f e') key)
         deduplication_fields) = true
  <-> exists f, In f deduplication_fields /\ f e = Some key.
Proof.
  rewrite existsb_exists. split.
  - intros [q [Hq Hqe]]. apply in_map_iff in Hq as [f [<- Hf]].
    exists f. split; [exact Hf|].
    now apply OrmFacts.option_string_eqb_true.
  - intros [f [Hf Hfe]].
    exists (fun e' => Orm.option_string_eqb (f e') key). split.
    + apply in_map_iff. now exists f.
    + now apply OrmFacts.option_string_eqb_true.
Qed.

(** X5.  The rows of [search_identifiers]: rows of the scope that pass every
    filter and hold the key in one of the deduplication fields; every such
    row of the scope has its primary key among them; no primary key comes
    twice.  The key is the normalised query when [maybe_isbn] accepts the
    query and the query itself otherwise. *)
Theorem search_identifiers_rows query filters start table rows :
  search_identifiers query filters false start table = Ok (QuerySet rows) ->
  let key := if maybe_isbn query then normalize_isbn query else query in
  (forall r, In r rows ->
     In r (objects_of start table)
     /\ forallb (fun q : Qobj => q (obj r)) filters = true
     /\ exists f, In f deduplication_fields /\ f (obj r) = Some key)
  /\ (forall r, In r (objects_of start table) ->
        forallb (fun q : Qobj => q (obj r)) filters = true ->
        (exists f, In f deduplication_fields /\ f (obj r) = Some key) ->
        exists r', In r' rows /\ id (obj r') = id (obj r))
  /\ NoDup (map (fun r => id (obj r)) rows).
Proof.
  intros E key. unfold search_identifiers in E. fold key in E.
  destruct (Orm.reduce_or _) as [any|e] eqn:Er; simpl in E; [|discriminate].
  pose proof (LookupFacts.reduce_or_spec _ _ Er) as Hany.
  inversion E as [Hrows]. clear E. split; [|split].
  - intros r Hr. apply OrmFacts.distinct_In in Hr.
    apply filter_In in Hr as [Hr Hf]. apply andb_true_iff in Hf as [Hf Hk].
    split; [exact Hr|]. split; [exact Hf|].
    rewrite Hany in Hk. now apply dedup_field_matches.
  - intros r Hr Hf Hk. apply OrmFacts.distinct_complete.
    apply filter_In. split; [exact Hr|].
    apply andb_true_iff. split; [exact Hf|].
    rewrite Hany. now apply dedup_field_matches.
  - apply LookupFacts.distinct_NoDup.
Qed.


End IdentifierLookup.

Lemma normalize_isbn_fixed_points_witness :
  normalize_isbn "9780747532699" = "9780747532699".
Proof.
  apply (normalize_isbn_fixed_points "9780747532699").
  repeat split. simpl. lia.
Defined.

Lemma isbn_search_case_and_space_witness :
  isbn_search " 059035342x " Demo.catalogue
  = isbn_search "059035342X" Demo.catalogue.
Proof.
  apply (isbn_search_case_and_space " 059035342x " "059035342X" Demo.catalogue).
  - discriminate.
  - discriminate.
  - reflexivity.
Defined.

Lemma isbn_search_rows_witness :
  exists rows,
    isbn_search "059035342x" Demo.catalogue = QuerySet rows
    /\ NoDup (map (fun r => id (obj r)) rows).
Proof.
  destruct (isbn_search_rows "059035342x" Demo.catalogue) as [rows [E [_ [_ Hn]]]].
  - discriminate.
  - exists rows. split; assumption.
Defined.

Lemma search_identifiers_rows_witness :
  NoDup (map (fun r => id (obj r)) [Demo.row Demo.philosophers_stone []]).
Proof.
  apply (search_identifiers_rows "747532699" [] None Demo.catalogue
           [Demo.row Demo.philosophers_stone []]).
  reflexivity.
Defined.


(** ** Further facts: the text search *)

Module SubqueryFacts.
Import Orm.

Lemma scalar_many vs :
  2 <= List.length vs -> scalar (Ok vs) = Raise ProgrammingError.
Proof. destruct vs as [|a [|b vs]]; simpl; intros; try lia. reflexivity. Qed.

Lemma scalar_ok_raise vs e : scalar (Ok vs) = Raise e -> e = ProgrammingError.
Proof.
  destruct vs as [|a [|b vs]]; simpl; intros E; try discriminate.
  now inversion E.
Qed.

Lemma annotate_subquery_const name sub v rows :
  scalar sub = Ok v ->
  annotate_subquery name sub rows = Ok (map (set name v) rows).
Proof.
  intros Es. unfold annotate_subquery.
  rewrite Es.
  induction rows as [|r rows IH]; [reflexivity|].
  simpl in *. rewrite IH. reflexivity.
Qed.

Lemma annotate_subquery_raise name sub e rows :
  scalar sub = Raise e -> rows <> [] ->
  annotate_subquery name sub rows = Raise e.
Proof.
  intros Es Hne. unfold annotate_subquery.
  destruct rows as [|r rows]; [congruence|]. cbn [mapM]. now rewrite Es.
Qed.

End SubqueryFacts.

Section TextSearchMore.
Context `{Collaborators}.

Lemma ranked_results_complete query mc filters start table r :
  In {| obj := obj r; annotations := [] |} (objects_of start table) ->
  annotations r = [("rank", SqlFloat (relevance query r))] ->
  forallb (fun q : Qobj => q (obj r)) filters = true ->
  search_vector_matches (search_vector (obj r)) (text_query query) = true ->
  (mc < relevance query r)%Q ->
  In r (ranked_results query mc filters start table).
Proof.
  intros Hobj Ha Hf Hm Hlt. unfold ranked_results.
  apply RankFacts.order_by_desc_In. apply filter_In. split.
  - unfold Orm.annotate. apply in_map_iff.
    exists {| obj := obj r; annotations := [] |}. split.
    + destruct r as [e a]. unfold relevance in Ha. simpl in Ha.
      unfold Orm.set. simpl. now rewrite Ha.
    + apply filter_In. split; [exact Hobj|]. simpl.
      now rewrite Hf, Hm.
  - unfold Orm.gt, Orm.get. rewrite Ha. simpl.
    apply negb_true_iff. destruct (Qle_bool _ mc) eqn:E; [|reflexivity].
    apply Qle_bool_iff in E. exfalso. now apply (Qlt_not_le _ _ Hlt).
Qed.

(** X7.  The ranked sequence holds exactly the rows of the scope that pass the
    filters, match the query and rank above [min_confidence], each with its
    relevance as the only annotation. *)
Theorem ranked_results_membership query mc filters start table r :
  In r (ranked_results query mc filters start table)
  <-> In {| obj := obj r; annotations := [] |} (objects_of start table)
      /\ annotations r = [("rank", SqlFloat (relevance query r))]
      /\ forallb (fun q : Qobj => q (obj r)) filters = true
      /\ search_vector_matches (search_vector (obj r)) (text_query query) = true
      /\ (mc < relevance query r)%Q.
Proof.
  split.
  - intros Hr. apply ranked_results_row in Hr. tauto.
  - intros [Hobj [Ha [Hf [Hm Hlt]]]]. now apply ranked_results_complete.
Qed.

(** X8.  Raising [min_confidence] removes rows from the ranked sequence and
    adds none. *)
Theorem ranked_results_antitone query mc mc' filters start table r :
  (mc <= mc')%Q ->
  In r (ranked_results query mc' filters start table) ->
  In r (ranked_results query mc filters start table).
Proof.
  intros Hle Hr. apply ranked_results_row in Hr as [Ha [Hlt [Hf [Hm Hobj]]]].
  apply ranked_results_complete; try assumption.
  now apply Qle_lt_trans with mc'.
Qed.

(** X9.  A row of the ranked sequence is formatted with its relevance as
    confidence, above [min_confidence]; a row of the identifier lookup or of
    [isbn_search] carries no rank and is formatted with confidence 1. *)
Theorem format_confidence_of_results query mc filters start table :
  (forall r, In r (ranked_results query mc filters start table) ->
     SearchResult.item "confidence" (format_search_result r)
     = Some (VFloat (relevance query r))
     /\ (mc < relevance query r)%Q)
  /\ (forall rf res r,
        search_identifiers query filters rf start table = Ok res ->
        res = Instance r \/ (exists rows, res = QuerySet rows /\ In r rows) ->
        SearchResult.item "confidence" (format_search_result r) = Some (VInt 1))
  /\ (forall rows r,
        isbn_search query table = QuerySet rows -> In r rows ->
        SearchResult.item "confidence" (format_search_result r) = Some (VInt 1)).
Proof.
  assert (Hplain : forall r, annotations r = [] ->
            SearchResult.item "confidence" (format_search_result r)
            = Some (VInt 1)).
  { intros r Ha. unfold format_search_result, Orm.get. rewrite Ha. reflexivity. }
  split; [|split].
  - intros r Hr. apply ranked_results_row in Hr as [Ha [Hlt _]].
    split; [|exact Hlt].
    unfold format_search_result, Orm.get. rewrite Ha. reflexivity.
  - intros rf res r E Hres. apply Hplain.
    unfold search_identifiers in E.
    destruct (Orm.reduce_or _) as [any|e]; simpl in E; [|discriminate].
    assert (Hin : In r (Orm.distinct
              (filter (fun r0 => forallb (fun q : Qobj => q (obj r0)) filters
                                 && any (obj r0))
                      (objects_of start table)))).
    { destruct rf; inversion E as [Hres']; subst res.
      - destruct Hres as [Hi|[rows [Hq _]]].
        + pose proof (LookupFacts.first_spec
            (Orm.distinct
               (filter (fun r0 => forallb (fun q : Qobj => q (obj r0)) filters
                                  && any (obj r0))
                       (objects_of start table)))) as Hf.
          rewrite Hi in Hf. apply Hf.
        + exfalso. revert Hq. unfold Orm.first.
          destruct (fold_right _ _ _); discriminate.
      - destruct Hres as [Hi|[rows [Hq Hr]]]; [discriminate|].
        inversion Hq. now subst rows. }
    apply OrmFacts.distinct_In in Hin. apply filter_In in Hin as [Hin _].
    now apply objects_of_annotations in Hin.
  - intros rows r E Hr. apply Hplain.
    unfold isbn_search in E. destruct (negb (PyStr.truthy query)); [discriminate|].
    inversion E as [Hrows]. subst rows.
    apply OrmFacts.distinct_In in Hr. apply filter_In in Hr as [Hr _].
    now apply OrmFacts.all_In in Hr.
Qed.

(** The deduplicating branch raises the engine's error as soon as
    [Edition] has two rows. *)
Lemma text_search_raises query mc filters rf start table :
  2 <= List.length table ->
  search_title_author query mc filters rf true start table
  = Raise ProgrammingError.
Proof.
  intros Hlen.
  destruct (search_title_author query mc filters rf true start table)
    as [res|e] eqn:E.
  - apply dedup_needs_small_table in E. lia.
  - destruct e; [reflexivity|]. exfalso.
    unfold search_title_author in E. simpl negb in E. cbv iota in E.
    set (results := ranked_results query mc filters start table) in E.
    assert (Hne : Orm.all table <> []).
    { destruct table; simpl in *; [lia|discriminate]. }
    destruct (Orm.scalar (Ok (Orm.values "rank" results))) as [v|e] eqn:Es.
    + rewrite (SubqueryFacts.annotate_subquery_const _ _ _ _ Es) in E.
      cbn [bind] in E.
      rewrite (SubqueryFacts.annotate_subquery_raise "rank" _ ProgrammingError)
        in E; [discriminate| |exact Hne].
      apply SubqueryFacts.scalar_many.
      unfold Orm.values, Orm.annotate_window.
      now rewrite !length_map, OrmFacts.all_length.
    + pose proof (SubqueryFacts.scalar_ok_raise _ _ Es) as ->.
      rewrite (SubqueryFacts.annotate_subquery_raise _ _ _ _ Es Hne) in E.
      cbn [bind] in E.
      rewrite (SubqueryFacts.annotate_subquery_raise "rank" _ ProgrammingError)
        in E; [discriminate|reflexivity|exact Hne].
Qed.

End TextSearchMore.

(** ** Further facts: the dispatch *)

Section DispatchMore.
Context `{Collaborators}.

Lemma strip_nonempty query : PyStr.strip query <> "" -> query <> "".
Proof. intros Hs ->. now apply Hs. Qed.

Lemma strip_idem query : PyStr.strip (PyStr.strip query) = PyStr.strip query.
Proof. apply PyStrFacts.stripped_strip, PyStrFacts.strip_stripped. Qed.

(** X10.  White space around a query that is not blank changes nothing: the
    searches see the stripped query only. *)
Theorem search_strips_query query mc filters rf table user start :
  PyStr.strip query <> "" ->
  search query mc filters rf table
  = search (PyStr.strip query) mc filters rf table
  /\ search_user_shelves query user mc filters rf start table
     = search_user_shelves (PyStr.strip query) user mc filters rf start table.
Proof.
  intros Hs. pose proof (strip_nonempty _ Hs) as Hq.
  unfold search, search_user_shelves.
  rewrite !(generic_search_unfold query) by exact Hq.
  rewrite !(generic_search_unfold (PyStr.strip query)) by exact Hs.
  now rewrite strip_idem.
Qed.

(** X11.  Whenever [search] reaches the text search on a table of two editions
    or more, the query it builds is refused by the engine. *)
Theorem text_search_needs_small_table query mc filters rf table :
  2 <= List.length table ->
  In (CallSearchTitleAuthor (PyStr.strip query))
     (fst (search query mc filters rf table)) ->
  snd (search query mc filters rf table) = Raise ProgrammingError.
Proof.
  intros Hlen. destruct query as [|c query]; [intros []|].
  unfold search. rewrite generic_search_unfold by discriminate. cbv zeta.
  destruct (PyStr.contains_char " " (PyStr.strip (String c query))).
  - intros _. simpl. now apply text_search_raises.
  - destruct (search_identifiers _ _ _ _ _) as [r|e].
    + destruct (Orm.truthy r); simpl.
      * intros [Hin|[]]. discriminate.
      * intros _. now apply text_search_raises.
    + simpl. intros [Hin|[]]. discriminate.
Qed.

(** X12.  On a table of one edition, [search] called without filters on a
    query with a space returns that edition, with 1 as its rank: the
    threshold plays no part, nor does it matter whether the edition matches
    the query. *)
Theorem text_search_single_edition query mc rf e :
  query <> "" ->
  PyStr.contains_char " "%char (PyStr.strip query) = true ->
  let found := {| obj := e; annotations := [("rank", SqlInt 1)] |} in
  search query mc None rf [e]
  = ([CallSearchTitleAuthor (PyStr.strip query)],
     Ok (if rf then Instance found else QuerySet [found])).
Proof.
  intros Hq Hsp found. unfold search.
  rewrite generic_search_unfold by exact Hq. cbv zeta. rewrite Hsp.
  now rewrite dedup_single_row_table.
Qed.

Lemma search_identifiers_passes_filters query filters start table rows r :
  search_identifiers query filters false start table = Ok (QuerySet rows) ->
  In r rows ->
  forallb (fun q : Qobj => q (obj r)) filters = true.
Proof.
  unfold search_identifiers.
  destruct (Orm.reduce_or _) as [any|e]; simpl; [|discriminate].
  intros E Hr. inversion E as [Hrows]. subst rows.
  apply OrmFacts.distinct_In in Hr. apply filter_In in Hr as [_ Hf].
  now apply andb_true_iff in Hf as [Hf _].
Qed.

(** X13.  What [search_user_shelves] returns from the identifier lookup is on a
    shelf of the user and passes the filters of the caller. *)
Theorem search_user_shelves_identifier_scope
    query user mc filters start table rows :
  search_user_shelves query user mc filters false start table
  = ([CallSearchIdentifiers (PyStr.strip query)], Ok (QuerySet rows)) ->
  forall r, In r rows ->
    In user (shelfbook_users (obj r))
    /\ forallb (fun q : Qobj => q (obj r)) (or_empty filters) = true.
Proof.
  intros E r Hr. destruct query as [|c query]; [discriminate|].
  unfold search_user_shelves in E.
  rewrite generic_search_unfold in E by discriminate. cbv zeta in E.
  destruct (PyStr.contains_char " " (PyStr.strip (String c query)));
    [discriminate|].
  destruct (search_identifiers _ _ _ _ _) as [res|e] eqn:Ei; [|discriminate].
  destruct (Orm.truthy res); [|discriminate].
  inversion E as [Hres]. subst res.
  pose proof (search_identifiers_passes_filters _ _ _ _ _ _ Ei Hr) as Hf.
  rewrite forallb_app in Hf. apply andb_true_iff in Hf as [Hf Hu].
  split; [|exact Hf].
  simpl in Hu. rewrite andb_true_r in Hu. unfold Q_shelfbook_user in Hu.
  apply existsb_exists in Hu as [u [Hin Heq]].
  apply Z.eqb_eq in Heq. now subst u.
Qed.

Lemma search_identifiers_finds query filters start table rows r :
  search_identifiers query filters false start table = Ok (QuerySet rows) ->
  In r (objects_of start table) ->
  forallb (fun q : Qobj => q (obj r)) filters = true ->
  (exists f, In f deduplication_fields
             /\ f (obj r)
                = Some (if maybe_isbn query then normalize_isbn query else query)) ->
  exists r', In r' rows /\ id (obj r') = id (obj r).
Proof.
  unfold search_identifiers.
  destruct (Orm.reduce_or _) as [any|e] eqn:Er; simpl; [|discriminate].
  intros E Hr Hf Hk. inversion E as [Hrows].
  apply OrmFacts.distinct_complete. apply filter_In. split; [exact Hr|].
  apply andb_true_iff. split; [exact Hf|].
  rewrite (LookupFacts.reduce_or_spec _ _ Er). now apply dedup_field_matches.
Qed.

(** X14.  [start or models.Edition.objects]: an empty [start] does not narrow
    the search to nothing, it searches the whole table; the identifier
    lookup then finds every edition of the table that holds the key. *)
Theorem empty_start_searches_whole_table query filters rf table :
  search_identifiers query filters rf (Some []) table
  = search_identifiers query filters rf None table
  /\ (forall mc dedup,
        search_title_author query mc filters rf dedup (Some []) table
        = search_title_author query mc filters rf dedup None table)
  /\ (forall rows e,
        search_identifiers query filters false (Some []) table
        = Ok (QuerySet rows) ->
        In e table ->
        forallb (fun q : Qobj => q e) filters = true ->
        (exists f, In f deduplication_fields
                   /\ f e = Some (if maybe_isbn query
                                  then normalize_isbn query else query)) ->
        exists r, In r rows /\ id (obj r) = id e).
Proof.
  split; [reflexivity|]. split; [reflexivity|].
  intros rows e E He Hf Hk.
  apply (search_identifiers_finds _ _ _ _ _
           {| obj := e; annotations := [] |} E); try assumption.
  unfold objects_of. apply OrmFacts.all_In. auto.
Qed.

Lemma first_shape rows :
  Orm.first rows = PyNone \/ exists r, Orm.first rows = Instance r.
Proof.
  unfold Orm.first. destruct (fold_right _ _ _) as [|r l];
    [now left|right; now exists r].
Qed.

(** X15.  The shape of what [search] returns for a query that is not empty: a
    queryset, or with [return_first] an instance or [None]; never the list
    of the early return. *)
Theorem search_result_shape query mc filters rf table res :
  query <> "" ->
  snd (search query mc filters rf table) = Ok res ->
  if rf then res = PyNone \/ exists r, res = Instance r
  else exists rows, res = QuerySet rows.
Proof.
  intros Hq. unfold search. rewrite generic_search_unfold by exact Hq.
  cbv zeta.
  assert (Hta : forall q,
            search_title_author q mc (or_empty filters) rf true None table
            = Ok res ->
            if rf then res = PyNone \/ exists r, res = Instance r
            else exists rows, res = QuerySet rows).
  { intros q E. unfold search_title_author in E.
    simpl negb in E. cbv iota in E.
    destruct (bind (Orm.annotate_subquery "rank" _ _) _) as [books|e];
      simpl in E; [|discriminate].
    destruct rf; inversion E.
    - apply first_shape.
    - now eexists. }
  destruct (PyStr.contains_char " " (PyStr.strip query)); simpl.
  - apply Hta.
  - destruct (search_identifiers _ _ _ _ _) as [r|e] eqn:Ei.
    + destruct (Orm.truthy r) eqn:Et; simpl.
      * intros E. inversion E. subst r. clear E.
        unfold search_identifiers in Ei.
        destruct (Orm.reduce_or _) as [any|e]; simpl in Ei; [|discriminate].
        destruct rf; inversion Ei.
        -- apply first_shape.
        -- now eexists.
      * apply Hta.
    + simpl. discriminate.
Qed.

End DispatchMore.

Lemma ranked_results_antitone_witness :
  In (Demo.row Demo.philosophers_stone [("rank", SqlFloat (3 # 10))])
     (ranked_results "stone philosopher potter" 0%Q [] None Demo.catalogue).
Proof.
  apply (ranked_results_antitone "stone philosopher potter" 0%Q (2 # 10)%Q).
  - discriminate.
  - left. reflexivity.
Defined.

Lemma format_confidence_of_results_witness :
  SearchResult.item "confidence"
    (format_search_result
       (Demo.row Demo.philosophers_stone [("rank", SqlFloat (3 # 10))]))
  = Some (VFloat (relevance "stone philosopher potter"
                    (Demo.row Demo.philosophers_stone
                       [("rank", SqlFloat (3 # 10))])))
  /\ (0 < relevance "stone philosopher potter"
            (Demo.row Demo.philosophers_stone [("rank", SqlFloat (3 # 10))]))%Q.
Proof.
  destruct (format_confidence_of_results "stone philosopher potter" 0%Q []
              None Demo.catalogue) as [Hranked _].
  apply Hranked. left. reflexivity.
Defined.

Lemma search_strips_query_witness :
  search "  harry potter " 0%Q None false Demo.catalogue
  = search "harry potter" 0%Q None false Demo.catalogue.
Proof.
  destruct (search_strips_query "  harry potter " 0%Q None false
              Demo.catalogue 7%Z None) as [Hsearch _].
  - discriminate.
  - exact Hsearch.
Defined.

Lemma text_search_needs_small_table_witness :
  snd (search "harry potter" 0%Q None false Demo.catalogue)
  = Raise ProgrammingError.
Proof.
  apply (text_search_needs_small_table "harry potter" 0%Q None false
           Demo.catalogue).
  - simpl. lia.
  - left. reflexivity.
Defined.

Lemma text_search_single_edition_witness :
  search "harry potter" (1 # 2)%Q None false [Demo.moby_dick]
  = ([CallSearchTitleAuthor "harry potter"],
     Ok (QuerySet [Demo.row Demo.moby_dick [("rank", SqlInt 1)]])).
Proof.
  apply (text_search_single_edition "harry potter" (1 # 2)%Q false
           Demo.moby_dick).
  - discriminate.
  - reflexivity.
Defined.

Lemma search_user_shelves_identifier_scope_witness :
  In 7%Z (shelfbook_users (obj (Demo.row Demo.philosophers_stone [])))
  /\ forallb (fun q : Qobj => q (obj (Demo.row Demo.philosophers_stone [])))
       (or_empty None) = true.
Proof.
  apply (search_user_shelves_identifier_scope "0747532699" 7%Z 0%Q None None
           Demo.catalogue [Demo.row Demo.philosophers_stone []]).
  - reflexivity.
  - left. reflexivity.
Defined.

Lemma empty_start_searches_whole_table_witness :
  exists r,
    In r [Demo.row Demo.philosophers_stone []]
    /\ id (obj r) = id Demo.philosophers_stone.
Proof.
  destruct (empty_start_searches_whole_table "0747532699" [] false
              Demo.catalogue) as [_ [_ Hfinds]].
  apply Hfinds.
  - reflexivity.
  - left. reflexivity.
  - reflexivity.
  - exists isbn_10. split; [right; left; reflexivity|reflexivity].
Defined.

Lemma search_result_shape_witness :
  exists rows, QuerySet [Demo.row Demo.philosophers_stone []] = QuerySet rows.
Proof.
  apply (search_result_shape "0747532699" 0%Q None false Demo.catalogue).
  - discriminate.
  - reflexivity.
Defined.
